(** * A shallow embedding of the todo front end

    The development follows the TypeScript sources of [my-todo-front]:

    - [types/todo.ts]: the entity model ([Todo], [Label] and the payloads);
    - [App.tsx], final revision: the application shell with todos, labels and
      the label filter, talking to the REST client (module [App]);
    - [App.tsx], first revision: the shell that keeps todos in local state
      only (module [LocalApp]);
    - [components/TodoForm.tsx]: the entry form (module [TodoForm]).

    Identifiers are JavaScript numbers that hold integers, modelled as [Z].
    Arrays are lists.  An [async] handler is a finite tree of awaited REST
    calls and React state updates; it is run against an arbitrary backend,
    which may reject any call. *)

From Stdlib Require Import List ZArith String Bool Lia Permutation.
Import ListNotations.

Local Open Scope Z_scope.
Local Open Scope string_scope.
Local Open Scope list_scope.

(** ** Entity model ([types/todo.ts]) *)

Record Label : Type := mkLabel {
  label_id : Z;
  label_name : string
}.

Record Todo : Type := mkTodo {
  todo_id : Z;
  todo_text : string;
  todo_completed : bool;
  todo_labels : list Label
}.

(** The declaration in [types/todo.ts] spells the [labels] field of the
    creation payload [Label[]]; the only producer of the payload,
    [TodoForm.addTodoHandler], stores [editLabels.map((label) => label.id)]
    there, so the value that travels is an array of numbers. *)
Record NewTodoPayload : Type := mkNewTodo {
  new_text : string;
  new_labels : list Z
}.

(** [Partial<Omit<Todo, 'id'>> & { id: number }]: a property that is absent
    is [None]. *)
Record UpdateTodoPayload : Type := mkUpdate {
  upd_id : Z;
  upd_text : option string;
  upd_completed : option bool;
  upd_labels : option (list Label)
}.

Record NewLabelPayload : Type := mkNewLabel {
  new_name : string
}.


(** ** The JavaScript operators the handlers rely on *)

Module JS.

(** [!!s] for a string: only the empty string is falsy. *)
Definition truthy_string (s : string) : bool := negb (s =? EmptyString)%string.

(** [!!n] for [number | null] holding an integer: [null] and [0] are
    falsy. *)
Definition truthy_number (n : option Z) : bool :=
  match n with
  | None => false
  | Some z => negb (z =? 0)%Z
  end.

(** [a === b] with [a : number] and [b : number | null]. *)
Definition strict_eq (a : Z) (b : option Z) : bool :=
  match b with
  | None => false
  | Some z => (a =? z)%Z
  end.

(** [x ?? d]. *)
Definition nullish {A : Type} (x : option A) (d : option A) : option A :=
  match x with
  | Some _ => x
  | None => d
  end.

End JS.

(** ** Asynchronous handlers

    The REST client ([lib/api/todo], [lib/api/label]) is a collaborator of
    the shell: each of its functions sends one request and resolves with the
    parsed answer, or rejects. *)

Inductive Request : Type :=
| getTodoItems
| addTodoItem (payload : NewTodoPayload)
| updateTodoItem (payload : UpdateTodoPayload)
| deleteTodoItem (id : Z)
| getLabelItems
| addLabelItem (payload : NewLabelPayload)
| deleteLabelItem (id : Z).

Definition Response (r : Request) : Type :=
  match r with
  | getTodoItems => list Todo
  | addTodoItem _ => Todo
  | updateTodoItem _ => Todo
  | deleteTodoItem _ => unit
  | getLabelItems => list Label
  | addLabelItem _ => Label
  | deleteLabelItem _ => unit
  end.

(** A handler over component state [St]: it returns, awaits a call and goes
    on with the answer, or queues a state update and goes on. *)
Inductive Async (St R : Type) : Type :=
| Return (r : R)
| Await (call : Request) (k : Response call -> Async St R)
| SetState (upd : St -> St) (k : Async St R).

Arguments Return {St R} r.
Arguments Await {St R} call k.
Arguments SetState {St R} upd k.

Fixpoint bind {St A B : Type} (m : Async St A) (f : A -> Async St B)
  : Async St B :=
  match m with
  | Return a => f a
  | Await call k => Await call (fun x => bind (k x) f)
  | SetState upd k => SetState upd (bind k f)
  end.

Definition await {St : Type} (call : Request) : Async St (Response call) :=
  Await call (fun x => Return x).

Definition setState {St : Type} (upd : St -> St) : Async St unit :=
  SetState upd (Return tt).

Declare Scope async_scope.
Delimit Scope async_scope with async.
Notation "x <- m ;; k" := (bind m (fun x => k))
  (at level 61, m at next level, right associativity) : async_scope.
Notation "m ;; k" := (bind m (fun _ => k))
  (at level 61, right associativity) : async_scope.

Inductive Outcome : Type := Fulfilled | Rejected.

(** What is left after a handler has run: how its promise settled, the
    component state, the backend, and the requests sent, oldest first. *)
Record Run (St Srv : Type) : Type := mkRun {
  outcome : Outcome;
  ui : St;
  backend : Srv;
  requests : list Request
}.

Arguments mkRun {St Srv} _ _ _ _.
Arguments outcome {St Srv} _.
Arguments ui {St Srv} _.
Arguments backend {St Srv} _.
Arguments requests {St Srv} _.

Definition sent {St Srv : Type} (r : Request) (run : Run St Srv) : Run St Srv :=
  mkRun (outcome run) (ui run) (backend run) (r :: requests run).

Section Exec.

Variable Srv : Type.

(** The backend answers a request ([Some]) or the call rejects ([None]). *)
Variable respond : forall r : Request, Srv -> option (Response r) * Srv.

Fixpoint exec {St : Type} (p : Async St unit) (st : St) (srv : Srv)
  : Run St Srv :=
  match p with
  | Return _ => mkRun Fulfilled st srv []
  | Await call k =>
      match respond call srv with
      | (Some x, srv') => sent call (exec (k x) st srv')
      | (None, srv') => mkRun Rejected st srv' [call]
      end
  | SetState upd k => exec k (upd st) srv
  end.

(** An event handler created by the latest render closes over the state
    of that render. *)
Definition dispatch {St : Type} (handler : St -> Async St unit)
    (st : St) (srv : Srv) : Run St Srv :=
  exec (handler st) st srv.

End Exec.

Arguments exec {Srv} respond {St} p st srv.
Arguments dispatch {Srv} respond {St} handler st srv.

(** ** The application shell ([App.tsx], final revision) *)

Module App.

Record State : Type := mkState {
  todos : list Todo;
  labels : list Label;
  filterLabelId : option Z
}.

(** [useState<Todo[]>([])], [useState<Label[]>([])],
    [useState<number | null>(null)]. *)
Definition initial : State := mkState [] [] None.

Definition setTodos (v : list Todo) (st : State) : State :=
  mkState v (labels st) (filterLabelId st).

Definition setLabels (v : list Label) (st : State) : State :=
  mkState (todos st) v (filterLabelId st).

(** [setLabels((prev) => f(prev))]. *)
Definition setLabelsWith (f : list Label -> list Label) (st : State) : State :=
  mkState (todos st) (f (labels st)) (filterLabelId st).

Definition setFilterLabelId (v : option Z) (st : State) : State :=
  mkState (todos st) (labels st) v.

Local Open Scope async_scope.

(** Every handler takes the state of the render that created it; a
    handler that closes over no state ignores it. *)

Definition onSubmit (payload : NewTodoPayload) (render : State)
  : Async State unit :=
  if negb (JS.truthy_string (new_text payload)) then Return tt
  else
    _ <- await (addTodoItem payload) ;;
    todos <- await getTodoItems ;;
    setState (setTodos todos).

Definition onUpdate (updateTodo : UpdateTodoPayload) (render : State)
  : Async State unit :=
  _ <- await (updateTodoItem updateTodo) ;;
  todos <- await getTodoItems ;;
  setState (setTodos todos).

Definition onDelete (id : Z) (render : State) : Async State unit :=
  _ <- await (deleteTodoItem id) ;;
  todos <- await getTodoItems ;;
  setState (setTodos todos).

(** [setFilterLabelId(label?.id ?? null)]. *)
Definition onSelectLabel (label : option Label) (render : State)
  : Async State unit :=
  setState (setFilterLabelId (JS.nullish (option_map label_id label) None)).

Definition onSubmitNewLabel (newLabel : NewLabelPayload) (render : State)
  : Async State unit :=
  if negb (existsb (fun label => (label_name label =? new_name newLabel)%string)
             (labels render))
  then
    res <- await (addLabelItem newLabel) ;;
    setState (setLabels (labels render ++ [res]))
  else Return tt.

Definition onDeleteLabel (id : Z) (render : State) : Async State unit :=
  _ <- await (deleteLabelItem id) ;;
  setState (setLabelsWith
              (filter (fun label => negb (label_id label =? id)%Z))).

(** The derived view handed to [TodoList]. *)
Definition dispTodo (render : State) : list Todo :=
  if JS.truthy_number (filterLabelId render)
  then filter (fun todo =>
                 existsb (fun label =>
                            JS.strict_eq (label_id label) (filterLabelId render))
                   (todo_labels todo))
         (todos render)
  else todos render.

(** The body of the mount effect. *)
Definition onMount (render : State) : Async State unit :=
  todos <- await getTodoItems ;;
  setState (setTodos todos) ;;
  labelResponse <- await getLabelItems ;;
  setState (setLabels labelResponse).

End App.

(** ** The first shell, with local state only ([App.tsx], first revision) *)

Module LocalApp.

(** The only state is [todos]. *)
Definition State : Type := list Todo.

(** [{ ...todo, ...updateTodo }]: every property present in [updateTodo]
    overwrites the one of [todo]; [id] is always present. *)
Definition spread (todo : Todo) (updateTodo : UpdateTodoPayload) : Todo :=
  mkTodo (upd_id updateTodo)
    (match upd_text updateTodo with
     | Some v => v
     | None => todo_text todo
     end)
    (match upd_completed updateTodo with
     | Some v => v
     | None => todo_completed todo
     end)
    (match upd_labels updateTodo with
     | Some v => v
     | None => todo_labels todo
     end).

(** The source annotates the argument of [onUpdate] as a whole [Todo],
    which is the payload with every property present. *)
Definition payload_of_todo (t : Todo) : UpdateTodoPayload :=
  mkUpdate (todo_id t) (Some (todo_text t)) (Some (todo_completed t))
    (Some (todo_labels t)).

Definition onUpdate (updateTodo : UpdateTodoPayload) (todos : State)
  : Async State unit :=
  setState (fun _ =>
    map (fun todo =>
           if (todo_id todo =? upd_id updateTodo)%Z
           then spread todo updateTodo
           else todo)
      todos).

(** [const createId = () => todos.length + 1], over the [todos] of the
    render. *)
Definition createId (todos : State) : Z := Z.of_nat (List.length todos) + 1.

(** The first revision's [onSubmit].  The object literal it prepends has the
    properties [id], [text] and [completed] and no [labels]; the record
    holds the empty list there. *)
Definition onSubmit (payload : NewTodoPayload) (todos : State)
  : Async State unit :=
  if negb (JS.truthy_string (new_text payload)) then Return tt
  else
    setState (fun prev =>
      mkTodo (createId todos) (new_text payload) false [] :: prev).

(** What the user can do in the first revision. *)
Inductive Intent : Type :=
| Submit (payload : NewTodoPayload)
| Update (updateTodo : UpdateTodoPayload).

Definition handler (i : Intent) : State -> Async State unit :=
  match i with
  | Submit payload => onSubmit payload
  | Update updateTodo => onUpdate updateTodo
  end.

End LocalApp.

(** ** The entry form ([components/TodoForm.tsx]) *)

Module TodoForm.

Record State : Type := mkState {
  editText : string;
  editLabels : list Label;
  openLabelModal : bool
}.

(** [useState] of the empty string, [useState<Label[]>([])], [useState(false)]. *)
Definition initial : State := mkState EmptyString [] false.

Definition setEditText (v : string) (st : State) : State :=
  mkState v (editLabels st) (openLabelModal st).


Definition setOpenLabelModal (v : bool) (st : State) : State :=
  mkState (editText st) (editLabels st) v.

(** The handler of the "add todo" button.  It awaits nothing; the result
    is the calls made to the [onSubmit] prop, in order, and the state of
    the form afterwards. *)
Definition addTodoHandler (st : State) : list NewTodoPayload * State :=
  if negb (JS.truthy_string (editText st)) then ([], st)
  else
    ([mkNewTodo (editText st) (map label_id (editLabels st))],
     setEditText EmptyString st).



End TodoForm.

(** ** A backend to run the handlers against *)

Module Backend.

(** Modelled from the spec: the REST service behind the client, which is
    not part of the front end.  It stores todos and labels, assigns
    identifiers on creation and answers every request; updating a todo
    that does not exist is rejected. *)
Record Db : Type := mkDb {
  db_todos : list Todo;
  db_labels : list Label;
  db_next : Z
}.

Definition labels_of (db : Db) (ids : list Z) : list Label :=
  filter (fun l => existsb (Z.eqb (label_id l)) ids) (db_labels db).

Definition respond (r : Request) (db : Db) : option (Response r) * Db :=
  match r as r0 return option (Response r0) * Db with
  | getTodoItems => (Some (db_todos db), db)
  | addTodoItem p =>
      let t := mkTodo (db_next db) (new_text p) false (labels_of db (new_labels p)) in
      (Some t, mkDb (db_todos db ++ [t]) (db_labels db) (db_next db + 1))
  | updateTodoItem u =>
      match find (fun t => (todo_id t =? upd_id u)%Z) (db_todos db) with
      | Some t =>
          let t' := LocalApp.spread t u in
          (Some t',
           mkDb (map (fun x => if (todo_id x =? upd_id u)%Z then t' else x)
                   (db_todos db))
             (db_labels db) (db_next db))
      | None => (None, db)
      end
  | deleteTodoItem id =>
      (Some tt,
       mkDb (filter (fun t => negb (todo_id t =? id)%Z) (db_todos db))
         (db_labels db) (db_next db))
  | getLabelItems => (Some (db_labels db), db)
  | addLabelItem p =>
      let l := mkLabel (db_next db) (new_name p) in
      (Some l, mkDb (db_todos db) (db_labels db ++ [l]) (db_next db + 1))
  | deleteLabelItem id =>
      (Some tt,
       mkDb (db_todos db)
         (filter (fun l => negb (label_id l =? id)%Z) (db_labels db))
         (db_next db))
  end.

(** A backend that cannot be reached: every call rejects. *)
Definition unreachable (r : Request) (db : Db) : option (Response r) * Db :=
  (None, db).

Definition empty : Db := mkDb [] [] 1.

(** The backend with some of its routes down: a call on such a route
    rejects, the others are answered as usual. *)
Definition failing (down : Request -> bool) (r : Request) (db : Db)
  : option (Response r) * Db :=
  if down r then (None, db) else respond r db.

Definition is_getTodoItems (r : Request) : bool :=
  match r with getTodoItems => true | _ => false end.

Definition is_getLabelItems (r : Request) : bool :=
  match r with getLabelItems => true | _ => false end.

End Backend.

(** ** Successive events *)

(** The intents of a list handled one after the other, each by the handler
    of the render that follows the previous one. *)
Fixpoint play {Srv : Type}
    (respond : forall r : Request, Srv -> option (Response r) * Srv)
    (intents : list LocalApp.Intent) (todos : LocalApp.State) (srv : Srv)
  : LocalApp.State :=
  match intents with
  | [] => todos
  | i :: rest =>
      play respond rest
        (ui (dispatch respond (LocalApp.handler i) todos srv))
        (backend (dispatch respond (LocalApp.handler i) todos srv))
  end.

(** [n, n-1, ..., 1]. *)
Fixpoint countdown (n : nat) : list Z :=
  match n with
  | O => []
  | S m => Z.of_nat (S m) :: countdown m
  end.

(** ** What a run may and may not have done *)

Definition is_label_request (r : Request) : bool :=
  match r with
  | getLabelItems | addLabelItem _ | deleteLabelItem _ => true
  | _ => false
  end.

(** A run of a todo handler from [st]: labels and filter are as before, a
    rejected run has changed nothing at all, at most two requests went out
    and none of them concerns labels. *)
Definition todo_only {Srv : Type} (st : App.State) (run : Run App.State Srv)
  : Prop :=
  App.labels (ui run) = App.labels st /\
  App.filterLabelId (ui run) = App.filterLabelId st /\
  (outcome run = Rejected -> ui run = st) /\
  (List.length (requests run) <= 2)%nat /\
  Forall (fun r => is_label_request r = false) (requests run).

(** ** What the view is meant to show, and sample data *)

(** The todos that carry a label with identifier [k], in cache order. *)
Definition carrying (k : Z) (todos : list Todo) : list Todo :=
  filter (fun todo => existsb (fun label => (label_id label =? k)%Z)
                        (todo_labels todo))
    todos.

Module Sample.

Definition home : Label := mkLabel 1 "home".
Definition shop : Label := mkLabel 2 "shop".
Definition zero : Label := mkLabel 0 "inbox".

Definition milk : Todo := mkTodo 1 "Buy milk" false [home; shop].
Definition mail : Todo := mkTodo 2 "Read mail" false [zero].
Definition nap : Todo := mkTodo 3 "Take a nap" true [].

Definition db : Backend.Db := Backend.mkDb [milk; mail; nap] [zero; home; shop] 4.

Definition shell : App.State := App.mkState [milk; mail; nap] [zero; home; shop] None.

Definition draft : TodoForm.State := TodoForm.mkState "Buy milk" [home; shop] false.

Definition blank : TodoForm.State := TodoForm.mkState EmptyString [home] false.

End Sample.

(** * Properties *)

(** ** Facts about the operators *)


Lemma truthy_string_empty s : JS.truthy_string s = false <-> s = EmptyString.
Proof.
  unfold JS.truthy_string.
  destruct (String.eqb_spec s EmptyString); simpl; split; congruence.
Qed.

Lemma truthy_string_nonempty s : JS.truthy_string s = true <-> s <> EmptyString.
Proof.
  unfold JS.truthy_string.
  destruct (String.eqb_spec s EmptyString); simpl; split; congruence.
Qed.

Lemma existsb_name_true (n : string) (ls : list Label) :
  existsb (fun label => (label_name label =? n)%string) ls = true <->
  exists label, In label ls /\ label_name label = n.
Proof.
  rewrite existsb_exists; split; intros [l [Hin H]]; exists l; split; auto.
  - now apply String.eqb_eq.
  - now apply String.eqb_eq.
Qed.

Lemma existsb_name_false (n : string) (ls : list Label) :
  existsb (fun label => (label_name label =? n)%string) ls = false <->
  forall label, In label ls -> label_name label <> n.
Proof.
  split.
  - intros H l Hin Hn.
    assert (existsb (fun label => (label_name label =? n)%string) ls = true)
      by (apply existsb_name_true; eauto).
    congruence.
  - intros H.
    destruct (existsb _ ls) eqn:E; [|reflexivity].
    apply existsb_name_true in E. destruct E as [l [Hin Hn]].
    exfalso; eapply H; eauto.
Qed.

(** ** Running handlers *)

Section Handlers.

Variable Srv : Type.
Variable respond : forall r : Request, Srv -> option (Response r) * Srv.

(** A handler sends nothing before its first [await]. *)
Lemma exec_Return {St : Type} (st : St) (srv : Srv) :
  exec respond (Return tt) st srv = mkRun Fulfilled st srv [].
Proof. reflexivity. Qed.

Lemma exec_bind_await {St : Type} (call : Request)
    (k : Response call -> Async St unit) (st : St) (srv srv' : Srv)
    (x : Response call) :
  respond call srv = (Some x, srv') ->
  exec respond (bind (await call) k) st srv = sent call (exec respond (k x) st srv').
Proof. intros H; simpl; rewrite H; reflexivity. Qed.

Lemma exec_bind_await_rejected {St : Type} (call : Request)
    (k : Response call -> Async St unit) (st : St) (srv srv' : Srv) :
  respond call srv = (None, srv') ->
  exec respond (bind (await call) k) st srv = mkRun Rejected st srv' [call].
Proof. intros H; simpl; rewrite H; reflexivity. Qed.

Lemma exec_setState {St : Type} (upd : St -> St) (st : St) (srv : Srv) :
  exec respond (setState upd) st srv = mkRun Fulfilled (upd st) srv [].
Proof. reflexivity. Qed.

(** The first request of a handler that starts with an [await] is sent
    whatever the backend answers. *)
Lemma exec_bind_await_first {St : Type} (call : Request)
    (k : Response call -> Async St unit) (st : St) (srv : Srv) :
  exists rest, requests (exec respond (bind (await call) k) st srv) = call :: rest.
Proof.
  simpl. destruct (respond call srv) as [[x|] srv']; simpl; eauto.
Qed.

(** *** Creating a todo *)

(** C2.  With an empty draft text the form's [addTodoHandler] makes no call
    to [onSubmit] and leaves the form as it is; and the shell's [onSubmit],
    given a payload with empty text, sends no request at all (neither
    [addTodoItem] nor [getTodoItems]) and leaves the shell's state, todos
    included, as it is. *)
Theorem empty_text_is_not_submitted
    (form : TodoForm.State) (payload : NewTodoPayload)
    (st : App.State) (srv : Srv) :
  TodoForm.editText form = EmptyString ->
  new_text payload = EmptyString ->
  TodoForm.addTodoHandler form = ([], form) /\
  dispatch respond (App.onSubmit payload) st srv = mkRun Fulfilled st srv [].
Proof.
  intros Hform Hpayload. split.
  - unfold TodoForm.addTodoHandler.
    apply truthy_string_empty in Hform. now rewrite Hform.
  - unfold dispatch, App.onSubmit.
    apply truthy_string_empty in Hpayload. now rewrite Hpayload.
Qed.

(** C3.  With a non-empty draft text [t] and selected labels of identifiers
    [i1, i2, ...], the form calls [onSubmit] once with
    [{text: t, labels: [i1, i2, ...]}]; the shell's [onSubmit] then sends
    exactly the creation request with that payload followed by one fetch of
    the todo list, and the fetched list replaces the cached todos (labels
    and filter are kept). *)
Theorem submit_creates_then_refetches
    (form : TodoForm.State) (st : App.State) (srv srv1 srv2 : Srv)
    (created : Todo) (fetched : list Todo) :
  TodoForm.editText form <> EmptyString ->
  respond (addTodoItem (mkNewTodo (TodoForm.editText form)
                          (map label_id (TodoForm.editLabels form)))) srv
    = (Some created, srv1) ->
  respond getTodoItems srv1 = (Some fetched, srv2) ->
  fst (TodoForm.addTodoHandler form)
    = [mkNewTodo (TodoForm.editText form)
         (map label_id (TodoForm.editLabels form))] /\
  dispatch respond
    (App.onSubmit (mkNewTodo (TodoForm.editText form)
                     (map label_id (TodoForm.editLabels form)))) st srv
    = mkRun Fulfilled
        (App.mkState fetched (App.labels st) (App.filterLabelId st))
        srv2
        [addTodoItem (mkNewTodo (TodoForm.editText form)
                        (map label_id (TodoForm.editLabels form)));
         getTodoItems].
Proof.
  intros Htext Hadd Hget.
  apply truthy_string_nonempty in Htext. split.
  - unfold TodoForm.addTodoHandler. now rewrite Htext.
  - unfold dispatch, App.onSubmit. simpl new_text. rewrite Htext. simpl negb.
    cbv iota.
    rewrite (exec_bind_await _ _ _ _ _ _ Hadd).
    rewrite (exec_bind_await _ _ _ _ _ _ Hget).
    reflexivity.
Qed.

(** *** Labels *)

(** C4.  [onSubmitNewLabel] with a payload whose name some cached label
    already bears sends no request and leaves the state as it is; with a
    name that no cached label bears it sends exactly one creation request,
    and the cached labels become the old ones followed by the label the
    backend returned. *)
Theorem onSubmitNewLabel_rejects_duplicate_else_appends
    (newLabel : NewLabelPayload) (st : App.State) (srv : Srv) :
  ((exists label, In label (App.labels st) /\
                  label_name label = new_name newLabel) ->
   dispatch respond (App.onSubmitNewLabel newLabel) st srv
     = mkRun Fulfilled st srv []) /\
  (forall (res : Label) (srv' : Srv),
     (forall label, In label (App.labels st) ->
                    label_name label <> new_name newLabel) ->
     respond (addLabelItem newLabel) srv = (Some res, srv') ->
     dispatch respond (App.onSubmitNewLabel newLabel) st srv
       = mkRun Fulfilled
           (App.mkState (App.todos st) (App.labels st ++ [res])
              (App.filterLabelId st))
           srv'
           [addLabelItem newLabel]).
Proof.
  split.
  - intros Hdup. apply existsb_name_true in Hdup.
    unfold dispatch, App.onSubmitNewLabel. rewrite Hdup.
    destruct st; reflexivity.
  - intros res srv' Hfresh Hadd. apply existsb_name_false in Hfresh.
    unfold dispatch, App.onSubmitNewLabel. rewrite Hfresh. simpl negb.
    cbv iota.
    rewrite (exec_bind_await _ _ _ _ _ _ Hadd).
    reflexivity.
Qed.

Lemma filter_other_id_In (id : Z) (ls : list Label) (label : Label) :
  In label (filter (fun l => negb (label_id l =? id)%Z) ls) <->
  In label ls /\ label_id label <> id.
Proof.
  rewrite filter_In, negb_true_iff, Z.eqb_neq. reflexivity.
Qed.

(** C5.  [onDeleteLabel k] sends exactly one request, the deletion of [k],
    and never a fetch, whatever the backend answers, and it never touches
    the cached todos or the filter.  When the backend acknowledges the
    deletion, the cached labels become the old ones without the entries of
    identifier [k]: the other entries stay, in their order. *)
Theorem onDeleteLabel_removes_exactly_that_id
    (k : Z) (st : App.State) (srv : Srv) :
  requests (dispatch respond (App.onDeleteLabel k) st srv)
    = [deleteLabelItem k] /\
  App.todos (ui (dispatch respond (App.onDeleteLabel k) st srv))
    = App.todos st /\
  App.filterLabelId (ui (dispatch respond (App.onDeleteLabel k) st srv))
    = App.filterLabelId st /\
  (forall srv' : Srv,
     respond (deleteLabelItem k) srv = (Some tt, srv') ->
     dispatch respond (App.onDeleteLabel k) st srv
       = mkRun Fulfilled
           (App.mkState (App.todos st)
              (filter (fun label => negb (label_id label =? k)%Z)
                 (App.labels st))
              (App.filterLabelId st))
           srv'
           [deleteLabelItem k] /\
     (forall label,
        In label (App.labels (ui (dispatch respond (App.onDeleteLabel k) st srv)))
        <-> In label (App.labels st) /\ label_id label <> k)).
Proof.
  unfold dispatch, App.onDeleteLabel. simpl.
  destruct (respond (deleteLabelItem k) srv) as [[[]|] srv1] eqn:E; simpl.
  - split; [reflexivity|]. split; [reflexivity|]. split; [reflexivity|].
    intros srv' H. inversion H; subst srv1. split; [reflexivity|].
    intros label. apply filter_other_id_In.
  - split; [reflexivity|]. split; [reflexivity|]. split; [reflexivity|].
    intros srv' H. discriminate.
Qed.

(** *** The label filter *)

Lemma onSelectLabel_sets_filter (label : option Label) (st : App.State)
    (srv : Srv) :
  dispatch respond (App.onSelectLabel label) st srv
    = mkRun Fulfilled
        (App.mkState (App.todos st) (App.labels st) (option_map label_id label))
        srv [].
Proof. destruct label; reflexivity. Qed.

Lemma dispTodo_no_filter (st : App.State) :
  App.filterLabelId st = None -> App.dispTodo st = App.todos st.
Proof. intros H; unfold App.dispTodo; now rewrite H. Qed.

Lemma dispTodo_nonzero_filter (st : App.State) (k : Z) :
  App.filterLabelId st = Some k -> k <> 0%Z ->
  App.dispTodo st = carrying k (App.todos st).
Proof.
  intros H Hk. unfold App.dispTodo, carrying. rewrite H. simpl.
  apply Z.eqb_neq in Hk. now rewrite Hk.
Qed.

Lemma dispTodo_zero_filter (st : App.State) :
  App.filterLabelId st = Some 0%Z -> App.dispTodo st = App.todos st.
Proof. intros H; unfold App.dispTodo; now rewrite H. Qed.

(** C10.  Selecting a label of identifier 0 stores 0 as the active filter;
    0 is falsy, so the derived view is the whole cached list, which is not
    in general the list of the todos that carry the label. *)
Theorem filter_on_label_zero_shows_every_todo
    (name : string) (st : App.State) (srv : Srv) :
  App.filterLabelId
    (ui (dispatch respond (App.onSelectLabel (Some (mkLabel 0 name))) st srv))
    = Some 0%Z /\
  JS.truthy_number (Some 0%Z) = false /\
  App.dispTodo
    (ui (dispatch respond (App.onSelectLabel (Some (mkLabel 0 name))) st srv))
    = App.todos st /\
  App.dispTodo
    (ui (dispatch respond (App.onSelectLabel (Some Sample.zero)) Sample.shell srv))
    <> carrying 0 (App.todos Sample.shell).
Proof.
  rewrite !onSelectLabel_sets_filter. simpl.
  split; [reflexivity|]. split; [reflexivity|]. split; [reflexivity|].
  vm_compute. discriminate.
Qed.

(** *** Updating a todo in local state *)

Lemma nth_error_map_some {A B : Type} (f : A -> B) (l : list A) (i : nat) (a : A) :
  nth_error l i = Some a -> nth_error (map f l) i = Some (f a).
Proof.
  revert i; induction l as [|x l IH]; intros [|i] H; simpl in *;
    try discriminate.
  - now inversion H.
  - now apply IH.
Qed.

(** C8.  The first shell's [onUpdate] sends nothing and keeps the length and
    order of the list.  A todo whose [id] differs from the payload's is
    unchanged; a todo whose [id] equals it keeps its [id], takes each
    property the payload provides, and keeps each property the payload
    leaves out. *)
Theorem onUpdate_changes_only_provided_fields_of_matching_todo
    (updateTodo : UpdateTodoPayload) (todos : LocalApp.State) (srv : Srv) :
  requests (dispatch respond (LocalApp.onUpdate updateTodo) todos srv) = [] /\
  List.length (ui (dispatch respond (LocalApp.onUpdate updateTodo) todos srv))
    = List.length todos /\
  (forall (i : nat) (todo : Todo),
     nth_error todos i = Some todo ->
     exists todo',
       nth_error (ui (dispatch respond (LocalApp.onUpdate updateTodo) todos srv)) i
         = Some todo' /\
       todo_id todo' = todo_id todo /\
       (todo_id todo <> upd_id updateTodo -> todo' = todo) /\
       (todo_id todo = upd_id updateTodo ->
          todo_text todo' = match upd_text updateTodo with
                            | Some v => v
                            | None => todo_text todo
                            end /\
          todo_completed todo' = match upd_completed updateTodo with
                                 | Some v => v
                                 | None => todo_completed todo
                                 end /\
          todo_labels todo' = match upd_labels updateTodo with
                              | Some v => v
                              | None => todo_labels todo
                              end)).
Proof.
  unfold dispatch, LocalApp.onUpdate; simpl.
  split; [reflexivity|]. split; [apply length_map|].
  intros i todo Hnth.
  eexists. split; [apply nth_error_map_some; exact Hnth|]. simpl.
  destruct (Z.eqb_spec (todo_id todo) (upd_id updateTodo)) as [Heq|Hne].
  - split; [simpl; congruence|]. split; [congruence|].
    intros _. simpl. auto.
  - split; [reflexivity|]. split; [reflexivity|]. congruence.
Qed.

(** With a whole [Todo] as argument, as the source annotates it, a matching
    entry is replaced by the argument. *)
Lemma onUpdate_whole_todo (updateTodo : Todo) (todos : LocalApp.State)
    (srv : Srv) :
  ui (dispatch respond (LocalApp.onUpdate (LocalApp.payload_of_todo updateTodo))
        todos srv)
    = map (fun todo => if (todo_id todo =? todo_id updateTodo)%Z
                       then updateTodo else todo) todos.
Proof.
  unfold dispatch, LocalApp.onUpdate; simpl.
  apply map_ext; intros todo.
  destruct (todo_id todo =? todo_id updateTodo)%Z; [|reflexivity].
  now destruct updateTodo.
Qed.

End Handlers.

(** C1.  The view at the active filter 0: the cached todos are all shown,
    although only one of them carries a label of identifier 0.  (For every
    other identifier, and without a filter, the view is as it is meant to
    be: [dispTodo_nonzero_filter], [dispTodo_no_filter].) *)
Theorem dispTodo_label_zero_is_not_filtered :
  App.dispTodo
    (App.mkState [Sample.milk; Sample.mail; Sample.nap]
       [Sample.zero; Sample.home; Sample.shop] (Some 0%Z))
    = [Sample.milk; Sample.mail; Sample.nap] /\
  carrying 0 [Sample.milk; Sample.mail; Sample.nap] = [Sample.mail].
Proof. split; reflexivity. Qed.

(** ** The entry form *)

Lemma addTodoHandler_nonempty (st : TodoForm.State) :
  TodoForm.editText st <> EmptyString ->
  TodoForm.addTodoHandler st
    = ([mkNewTodo (TodoForm.editText st) (map label_id (TodoForm.editLabels st))],
       TodoForm.mkState EmptyString (TodoForm.editLabels st)
         (TodoForm.openLabelModal st)).
Proof.
  intros H. apply truthy_string_nonempty in H.
  unfold TodoForm.addTodoHandler. now rewrite H.
Qed.

Lemma addTodoHandler_empty (st : TodoForm.State) :
  TodoForm.editText st = EmptyString ->
  TodoForm.addTodoHandler st = ([], st).
Proof.
  intros H. apply truthy_string_empty in H.
  unfold TodoForm.addTodoHandler. now rewrite H.
Qed.

(** C6, as amended.  After a submission with a non-empty draft text the
    draft text is empty, and the draft label selection and the modal flag
    are what they were. *)
Theorem addTodoHandler_clears_text_only (st : TodoForm.State) :
  TodoForm.editText st <> EmptyString ->
  TodoForm.editText (snd (TodoForm.addTodoHandler st)) = EmptyString /\
  TodoForm.editLabels (snd (TodoForm.addTodoHandler st))
    = TodoForm.editLabels st /\
  TodoForm.openLabelModal (snd (TodoForm.addTodoHandler st))
    = TodoForm.openLabelModal st.
Proof.
  intros H. rewrite (addTodoHandler_nonempty st H). simpl. auto.
Qed.

(** C7.  Every payload the form hands to [onSubmit] has the draft text as
    its text and, as its labels, the identifiers of the selected draft
    labels in selection order; with a non-empty draft text there is exactly
    one such payload. *)
Theorem addTodoHandler_payload_carries_label_ids (st : TodoForm.State) :
  Forall (fun payload =>
            new_text payload = TodoForm.editText st /\
            new_labels payload = map label_id (TodoForm.editLabels st))
    (fst (TodoForm.addTodoHandler st)) /\
  (TodoForm.editText st <> EmptyString ->
   fst (TodoForm.addTodoHandler st)
     = [mkNewTodo (TodoForm.editText st)
          (map label_id (TodoForm.editLabels st))]).
Proof.
  split.
  - unfold TodoForm.addTodoHandler.
    destruct (negb (JS.truthy_string (TodoForm.editText st))); simpl.
    + constructor.
    + constructor; [split; reflexivity | constructor].
  - intros H. now rewrite (addTodoHandler_nonempty st H).
Qed.

(** *** Toggling a label in the modal *)














(** C6, as first stated (the whole draft is cleared), fails: the draft
    "Buy milk" with two labels selected still has them after the
    submission. *)
Lemma addTodoHandler_keeps_label_selection :
  TodoForm.editText Sample.draft <> EmptyString /\
  ~ (TodoForm.editText (snd (TodoForm.addTodoHandler Sample.draft)) = EmptyString /\
     TodoForm.editLabels (snd (TodoForm.addTodoHandler Sample.draft)) = []).
Proof.
  split; [discriminate|]. intros [_ H]. discriminate H.
Qed.

(** ** The mount effect *)

(** When both fetches are answered, the mount effect sends exactly one fetch
    of the todos and then one fetch of the labels, and the state holds both
    answers; the filter is not touched. *)
Lemma onMount_fetches_each_collection_once
    (Srv : Type) (respond : forall r : Request, Srv -> option (Response r) * Srv)
    (st : App.State) (srv srv1 srv2 : Srv)
    (fetched : list Todo) (labelResponse : list Label) :
  respond getTodoItems srv = (Some fetched, srv1) ->
  respond getLabelItems srv1 = (Some labelResponse, srv2) ->
  dispatch respond App.onMount st srv
    = mkRun Fulfilled (App.mkState fetched labelResponse (App.filterLabelId st))
        srv2 [getTodoItems; getLabelItems].
Proof.
  intros Htodos Hlabels. unfold dispatch, App.onMount. simpl.
  rewrite Htodos. simpl. rewrite Hlabels. reflexivity.
Qed.

(** A rejected [getLabelItems] leaves the todos that were already set. *)
Lemma onMount_labels_rejected
    (Srv : Type) (respond : forall r : Request, Srv -> option (Response r) * Srv)
    (st : App.State) (srv srv1 srv2 : Srv) (fetched : list Todo) :
  respond getTodoItems srv = (Some fetched, srv1) ->
  respond getLabelItems srv1 = (None, srv2) ->
  dispatch respond App.onMount st srv
    = mkRun Rejected (App.mkState fetched (App.labels st) (App.filterLabelId st))
        srv2 [getTodoItems; getLabelItems].
Proof.
  intros Htodos Hlabels. unfold dispatch, App.onMount. simpl.
  rewrite Htodos. simpl. rewrite Hlabels. reflexivity.
Qed.

(** ** The properties at work on the sample data *)

Lemma empty_text_is_not_submitted_witness :
  TodoForm.addTodoHandler Sample.blank = ([], Sample.blank) /\
  dispatch Backend.respond (App.onSubmit (mkNewTodo EmptyString [1%Z]))
    Sample.shell Sample.db
    = mkRun Fulfilled Sample.shell Sample.db [].
Proof.
  apply (empty_text_is_not_submitted Backend.Db Backend.respond
           Sample.blank (mkNewTodo EmptyString [1%Z]) Sample.shell Sample.db);
    reflexivity.
Defined.

Lemma submit_creates_then_refetches_witness :
  fst (TodoForm.addTodoHandler Sample.draft)
    = [mkNewTodo "Buy milk" [1%Z; 2%Z]] /\
  requests (dispatch Backend.respond
              (App.onSubmit (mkNewTodo "Buy milk" [1%Z; 2%Z]))
              Sample.shell Sample.db)
    = [addTodoItem (mkNewTodo "Buy milk" [1%Z; 2%Z]); getTodoItems].
Proof.
  assert (Htext : TodoForm.editText Sample.draft <> EmptyString)
    by (simpl; discriminate).
  destruct (submit_creates_then_refetches Backend.Db Backend.respond
              Sample.draft Sample.shell Sample.db _ _ _ _
              Htext eq_refl eq_refl) as [Hcall Hrun].
  split; [exact Hcall | exact (f_equal requests Hrun)].
Defined.

Lemma onSubmitNewLabel_rejects_duplicate_else_appends_witness :
  dispatch Backend.respond (App.onSubmitNewLabel (mkNewLabel "home"))
    Sample.shell Sample.db
    = mkRun Fulfilled Sample.shell Sample.db [] /\
  App.labels (ui (dispatch Backend.respond
                    (App.onSubmitNewLabel (mkNewLabel "work"))
                    Sample.shell Sample.db))
    = [Sample.zero; Sample.home; Sample.shop; mkLabel 4 "work"].
Proof.
  split.
  - apply (proj1 (onSubmitNewLabel_rejects_duplicate_else_appends
                    Backend.Db Backend.respond (mkNewLabel "home")
                    Sample.shell Sample.db)).
    exists Sample.home. split; [simpl; auto | reflexivity].
  - assert (Hfresh : forall label, In label (App.labels Sample.shell) ->
                                   label_name label <> new_name (mkNewLabel "work")).
    { intros label [<-|[<-|[<-|[]]]]; simpl; discriminate. }
    rewrite (proj2 (onSubmitNewLabel_rejects_duplicate_else_appends
                      Backend.Db Backend.respond (mkNewLabel "work")
                      Sample.shell Sample.db)
               (mkLabel 4 "work") _ Hfresh eq_refl).
    reflexivity.
Defined.

Lemma onDeleteLabel_removes_exactly_that_id_witness :
  requests (dispatch Backend.respond (App.onDeleteLabel 1) Sample.shell Sample.db)
    = [deleteLabelItem 1] /\
  App.labels (ui (dispatch Backend.respond (App.onDeleteLabel 1)
                    Sample.shell Sample.db))
    = [Sample.zero; Sample.shop].
Proof.
  destruct (onDeleteLabel_removes_exactly_that_id Backend.Db Backend.respond
              1%Z Sample.shell Sample.db) as [Hreq [_ [_ Hack]]].
  split; [exact Hreq|].
  destruct (Hack _ eq_refl) as [Hrun _].
  rewrite Hrun. reflexivity.
Defined.

Lemma addTodoHandler_clears_text_only_witness :
  TodoForm.editText (snd (TodoForm.addTodoHandler Sample.draft)) = EmptyString /\
  TodoForm.editLabels (snd (TodoForm.addTodoHandler Sample.draft))
    = [Sample.home; Sample.shop] /\
  TodoForm.openLabelModal (snd (TodoForm.addTodoHandler Sample.draft)) = false.
Proof.
  apply (addTodoHandler_clears_text_only Sample.draft). simpl. discriminate.
Defined.

Lemma addTodoHandler_payload_carries_label_ids_witness :
  fst (TodoForm.addTodoHandler Sample.draft)
    = [mkNewTodo "Buy milk" [1%Z; 2%Z]].
Proof.
  apply (proj2 (addTodoHandler_payload_carries_label_ids Sample.draft)).
  simpl. discriminate.
Defined.

Lemma onUpdate_changes_only_provided_fields_of_matching_todo_witness :
  exists todo',
    nth_error
      (ui (dispatch Backend.respond
             (LocalApp.onUpdate (mkUpdate 2 None (Some true) None))
             [Sample.milk; Sample.mail; Sample.nap] Sample.db)) 1
      = Some todo' /\
    todo_id todo' = 2%Z /\
    todo_text todo' = "Read mail" /\
    todo_completed todo' = true /\
    todo_labels todo' = [Sample.zero].
Proof.
  destruct (onUpdate_changes_only_provided_fields_of_matching_todo
              Backend.Db Backend.respond (mkUpdate 2 None (Some true) None)
              [Sample.milk; Sample.mail; Sample.nap] Sample.db)
    as [_ [_ Hnth]].
  destruct (Hnth 1%nat Sample.mail eq_refl)
    as [todo' [Hat [Hid [_ Hfields]]]].
  destruct (Hfields eq_refl) as [Htext [Hcompleted Hlabels]].
  exists todo'. repeat split; assumption.
Defined.


(** * Further properties of the handlers *)

Section ShellRuns.

Variable Srv : Type.
Variable respond : forall r : Request, Srv -> option (Response r) * Srv.

(** The three todo handlers share one shape: a write, then a fetch of the
    whole list, then [setTodos]. *)
Lemma write_then_refetch_cases (w : Request) (st : App.State) (srv : Srv) :
  exec respond
    (bind (await w) (fun _ =>
       bind (await getTodoItems) (fun todos => setState (App.setTodos todos))))
    st srv
  = match respond w srv with
    | (None, srv1) => mkRun Rejected st srv1 [w]
    | (Some _, srv1) =>
        match respond getTodoItems srv1 with
        | (None, srv2) => mkRun Rejected st srv2 [w; getTodoItems]
        | (Some fetched, srv2) =>
            mkRun Fulfilled (App.setTodos fetched st) srv2 [w; getTodoItems]
        end
    end.
Proof.
  simpl. destruct (respond w srv) as [[x|] srv1]; [|reflexivity].
  simpl. destruct (respond getTodoItems srv1) as [[fetched|] srv2]; reflexivity.
Qed.

Lemma onSubmit_nonempty_shape (payload : NewTodoPayload) (st : App.State) :
  new_text payload <> EmptyString ->
  App.onSubmit payload st
  = bind (await (addTodoItem payload)) (fun _ =>
      bind (await getTodoItems) (fun todos => setState (App.setTodos todos))).
Proof.
  intros H. apply truthy_string_nonempty in H.
  unfold App.onSubmit. now rewrite H.
Qed.

Lemma write_then_refetch_todo_only (w : Request) (st : App.State) (srv : Srv) :
  is_label_request w = false ->
  todo_only st
    (exec respond
       (bind (await w) (fun _ =>
          bind (await getTodoItems) (fun todos => setState (App.setTodos todos))))
       st srv).
Proof.
  intros Hw. rewrite write_then_refetch_cases. unfold todo_only.
  destruct (respond w srv) as [[x|] srv1].
  - destruct (respond getTodoItems srv1) as [[fetched|] srv2]; simpl;
      repeat split; auto; try discriminate; repeat constructor; assumption.
  - simpl. repeat split; auto; repeat constructor; assumption.
Qed.

(** *** Mount *)

(** When the first fetch of the mount effect is rejected, the effect stops
    there: the labels are never asked for and the state is untouched.  When
    the todos arrive and the fetch of the labels is rejected, the todos are
    in the state already and the labels are not. *)
Theorem onMount_stops_at_first_rejection (st : App.State) (srv : Srv) :
  (forall srv1 : Srv,
     respond getTodoItems srv = (None, srv1) ->
     dispatch respond App.onMount st srv
       = mkRun Rejected st srv1 [getTodoItems]) /\
  (forall (fetched : list Todo) (srv1 srv2 : Srv),
     respond getTodoItems srv = (Some fetched, srv1) ->
     respond getLabelItems srv1 = (None, srv2) ->
     dispatch respond App.onMount st srv
       = mkRun Rejected
           (App.mkState fetched (App.labels st) (App.filterLabelId st))
           srv2 [getTodoItems; getLabelItems]).
Proof.
  unfold dispatch, App.onMount; simpl. split.
  - intros srv1 H. now rewrite H.
  - intros fetched srv1 srv2 H1 H2. rewrite H1. simpl. now rewrite H2.
Qed.

(** *** Updating and deleting a todo through the backend *)

(** The final shell's [onUpdate] sends the update and then one fetch of the
    whole list; the fetched list becomes the cached todos, whatever the
    payload said, and labels and filter stay. *)
Theorem onUpdate_updates_then_refetches
    (updateTodo : UpdateTodoPayload) (st : App.State) (srv srv1 srv2 : Srv)
    (updated : Todo) (fetched : list Todo) :
  respond (updateTodoItem updateTodo) srv = (Some updated, srv1) ->
  respond getTodoItems srv1 = (Some fetched, srv2) ->
  dispatch respond (App.onUpdate updateTodo) st srv
    = mkRun Fulfilled
        (App.mkState fetched (App.labels st) (App.filterLabelId st))
        srv2 [updateTodoItem updateTodo; getTodoItems].
Proof.
  intros H1 H2. unfold dispatch, App.onUpdate.
  rewrite write_then_refetch_cases, H1, H2. reflexivity.
Qed.

(** [onDelete] sends the deletion and then one fetch of the whole list; the
    fetched list becomes the cached todos: nothing is removed locally. *)
Theorem onDelete_deletes_then_refetches
    (id : Z) (st : App.State) (srv srv1 srv2 : Srv) (fetched : list Todo) :
  respond (deleteTodoItem id) srv = (Some tt, srv1) ->
  respond getTodoItems srv1 = (Some fetched, srv2) ->
  dispatch respond (App.onDelete id) st srv
    = mkRun Fulfilled
        (App.mkState fetched (App.labels st) (App.filterLabelId st))
        srv2 [deleteTodoItem id; getTodoItems].
Proof.
  intros H1 H2. unfold dispatch, App.onDelete.
  rewrite write_then_refetch_cases, H1, H2. reflexivity.
Qed.

(** When the write of a todo handler is rejected, no fetch follows and the
    state is untouched. *)
Theorem rejected_write_is_not_followed_by_a_fetch
    (payload : NewTodoPayload) (updateTodo : UpdateTodoPayload) (id : Z)
    (st : App.State) (srv srv1 : Srv) :
  (new_text payload <> EmptyString ->
   respond (addTodoItem payload) srv = (None, srv1) ->
   dispatch respond (App.onSubmit payload) st srv
     = mkRun Rejected st srv1 [addTodoItem payload]) /\
  (respond (updateTodoItem updateTodo) srv = (None, srv1) ->
   dispatch respond (App.onUpdate updateTodo) st srv
     = mkRun Rejected st srv1 [updateTodoItem updateTodo]) /\
  (respond (deleteTodoItem id) srv = (None, srv1) ->
   dispatch respond (App.onDelete id) st srv
     = mkRun Rejected st srv1 [deleteTodoItem id]).
Proof.
  unfold dispatch. split; [|split].
  - intros Htext H. rewrite (onSubmit_nonempty_shape _ _ Htext).
    rewrite write_then_refetch_cases, H. reflexivity.
  - intros H. unfold App.onUpdate.
    rewrite write_then_refetch_cases, H. reflexivity.
  - intros H. unfold App.onDelete.
    rewrite write_then_refetch_cases, H. reflexivity.
Qed.

(** When the write is acknowledged and the fetch that follows is rejected,
    the cached todos are the old ones: what the backend has done is not
    shown. *)
Theorem rejected_refetch_leaves_the_old_todos
    (payload : NewTodoPayload) (updateTodo : UpdateTodoPayload) (id : Z)
    (st : App.State) (srv srv1 srv2 : Srv) (created updated : Todo) :
  respond getTodoItems srv1 = (None, srv2) ->
  (new_text payload <> EmptyString ->
   respond (addTodoItem payload) srv = (Some created, srv1) ->
   dispatch respond (App.onSubmit payload) st srv
     = mkRun Rejected st srv2 [addTodoItem payload; getTodoItems]) /\
  (respond (updateTodoItem updateTodo) srv = (Some updated, srv1) ->
   dispatch respond (App.onUpdate updateTodo) st srv
     = mkRun Rejected st srv2 [updateTodoItem updateTodo; getTodoItems]) /\
  (respond (deleteTodoItem id) srv = (Some tt, srv1) ->
   dispatch respond (App.onDelete id) st srv
     = mkRun Rejected st srv2 [deleteTodoItem id; getTodoItems]).
Proof.
  intros Hget. unfold dispatch. split; [|split].
  - intros Htext H. rewrite (onSubmit_nonempty_shape _ _ Htext).
    rewrite write_then_refetch_cases, H, Hget. reflexivity.
  - intros H. unfold App.onUpdate.
    rewrite write_then_refetch_cases, H, Hget. reflexivity.
  - intros H. unfold App.onDelete.
    rewrite write_then_refetch_cases, H, Hget. reflexivity.
Qed.

(** Against every backend and for every argument, the three todo handlers
    leave labels and filter alone, change nothing when they end rejected,
    send at most two requests and never one that concerns labels. *)
Theorem todo_handlers_keep_to_the_todos
    (payload : NewTodoPayload) (updateTodo : UpdateTodoPayload) (id : Z)
    (st : App.State) (srv : Srv) :
  todo_only st (dispatch respond (App.onSubmit payload) st srv) /\
  todo_only st (dispatch respond (App.onUpdate updateTodo) st srv) /\
  todo_only st (dispatch respond (App.onDelete id) st srv).
Proof.
  unfold dispatch. split; [|split].
  - destruct (String.eqb_spec (new_text payload) EmptyString) as [He|Hne].
    + unfold App.onSubmit. apply truthy_string_empty in He. rewrite He.
      simpl. unfold todo_only; simpl.
      repeat split; auto; try discriminate; constructor.
    + rewrite (onSubmit_nonempty_shape _ _ Hne).
      now apply write_then_refetch_todo_only.
  - now apply write_then_refetch_todo_only.
  - now apply write_then_refetch_todo_only.
Qed.

(** *** Labels *)

(** A rejected label call changes nothing: after a rejected creation the
    label is not in the cache, after a rejected deletion it still is. *)
Theorem rejected_label_call_changes_nothing
    (newLabel : NewLabelPayload) (k : Z) (st : App.State) (srv srv1 : Srv) :
  ((forall label, In label (App.labels st) ->
                  label_name label <> new_name newLabel) ->
   respond (addLabelItem newLabel) srv = (None, srv1) ->
   dispatch respond (App.onSubmitNewLabel newLabel) st srv
     = mkRun Rejected st srv1 [addLabelItem newLabel]) /\
  (respond (deleteLabelItem k) srv = (None, srv1) ->
   dispatch respond (App.onDeleteLabel k) st srv
     = mkRun Rejected st srv1 [deleteLabelItem k]).
Proof.
  unfold dispatch. split.
  - intros Hfresh H. apply existsb_name_false in Hfresh.
    unfold App.onSubmitNewLabel. rewrite Hfresh. simpl. now rewrite H.
  - intros H. unfold App.onDeleteLabel. simpl. now rewrite H.
Qed.

(** [onSubmitNewLabel] appends to the labels of the render that created it.
    When two submissions are made from one render, the second one checks its
    name against that render and overwrites what the first one stored: the
    cache ends with the labels of the render and the second label only. *)
Theorem second_label_submission_from_one_render_drops_the_first
    (first second : NewLabelPayload) (render : App.State)
    (srv srv1 srv2 : Srv) (res1 res2 : Label) :
  (forall label, In label (App.labels render) ->
                 label_name label <> new_name first) ->
  (forall label, In label (App.labels render) ->
                 label_name label <> new_name second) ->
  respond (addLabelItem first) srv = (Some res1, srv1) ->
  respond (addLabelItem second) srv1 = (Some res2, srv2) ->
  exec respond (App.onSubmitNewLabel second render)
    (ui (dispatch respond (App.onSubmitNewLabel first) render srv))
    (backend (dispatch respond (App.onSubmitNewLabel first) render srv))
  = mkRun Fulfilled
      (App.mkState (App.todos render) (App.labels render ++ [res2])
         (App.filterLabelId render))
      srv2 [addLabelItem second].
Proof.
  intros Hf1 Hf2 H1 H2.
  apply existsb_name_false in Hf1. apply existsb_name_false in Hf2.
  unfold dispatch, App.onSubmitNewLabel. rewrite Hf1, Hf2. simpl.
  rewrite H1. simpl. rewrite H2. reflexivity.
Qed.

Lemma without_two_ids (k1 k2 : Z) (cached : list Label) :
  filter (fun label => negb (label_id label =? k2)%Z)
    (filter (fun label => negb (label_id label =? k1)%Z) cached)
  = filter (fun label => negb (label_id label =? k1)%Z
                         && negb (label_id label =? k2)%Z)
      cached.
Proof.
  induction cached as [|label rest IH]; [reflexivity|]. simpl.
  destruct (label_id label =? k1)%Z; simpl; [exact IH|].
  destruct (label_id label =? k2)%Z; simpl; now rewrite IH.
Qed.

(** [onDeleteLabel] filters the labels of the state at hand, not those of
    its render: two deletions made from one render both take effect. *)
Theorem deletions_from_one_render_both_take_effect
    (k1 k2 : Z) (render : App.State) (srv srv1 srv2 : Srv) :
  respond (deleteLabelItem k1) srv = (Some tt, srv1) ->
  respond (deleteLabelItem k2) srv1 = (Some tt, srv2) ->
  exec respond (App.onDeleteLabel k2 render)
    (ui (dispatch respond (App.onDeleteLabel k1) render srv))
    (backend (dispatch respond (App.onDeleteLabel k1) render srv))
  = mkRun Fulfilled
      (App.mkState (App.todos render)
         (filter (fun label => negb (label_id label =? k1)%Z
                               && negb (label_id label =? k2)%Z)
            (App.labels render))
         (App.filterLabelId render))
      srv2 [deleteLabelItem k2].
Proof.
  intros H1 H2. unfold dispatch, App.onDeleteLabel. simpl.
  rewrite H1. simpl. rewrite H2. simpl.
  unfold App.setLabelsWith. simpl. now rewrite without_two_ids.
Qed.

Lemma names_of_kept_labels (keep : Label -> bool) (cached : list Label) :
  incl (map label_name (filter keep cached)) (map label_name cached).
Proof.
  intros n Hn. apply in_map_iff in Hn. destruct Hn as [label [Hname Hkept]].
  apply filter_In in Hkept. apply in_map_iff. exists label. tauto.
Qed.

Lemma distinct_names_after_filter (keep : Label -> bool) (cached : list Label) :
  NoDup (map label_name cached) ->
  NoDup (map label_name (filter keep cached)).
Proof.
  induction cached as [|label rest IH]; intros Hnd; [constructor|].
  apply NoDup_cons_iff in Hnd. destruct Hnd as [Hfresh Hrest]. simpl.
  destruct (keep label); [|now apply IH].
  simpl. apply NoDup_cons_iff. split; [|now apply IH].
  intros Hin. apply Hfresh. now apply (names_of_kept_labels keep rest).
Qed.

(** The label handlers keep the names in the cache distinct, provided the
    backend answers a creation with a label that bears the submitted
    name. *)
Theorem label_names_stay_distinct
    (newLabel : NewLabelPayload) (k : Z) (st : App.State) (srv : Srv) :
  NoDup (map label_name (App.labels st)) ->
  (forall (res : Label) (srv1 : Srv),
     respond (addLabelItem newLabel) srv = (Some res, srv1) ->
     label_name res = new_name newLabel) ->
  NoDup (map label_name
           (App.labels
              (ui (dispatch respond (App.onSubmitNewLabel newLabel) st srv)))) /\
  NoDup (map label_name
           (App.labels (ui (dispatch respond (App.onDeleteLabel k) st srv)))).
Proof.
  intros Hnd Hecho. unfold dispatch. split.
  - unfold App.onSubmitNewLabel.
    destruct (existsb _ (App.labels st)) eqn:Hex; simpl; [assumption|].
    destruct (respond (addLabelItem newLabel) srv) as [[res|] srv1] eqn:Hadd;
      simpl; [|assumption].
    rewrite map_app. simpl.
    apply (Permutation_NoDup (l := label_name res :: map label_name (App.labels st))).
    + apply Permutation_cons_append.
    + constructor; [|assumption].
      rewrite (Hecho res srv1 eq_refl). intros Hin.
      apply in_map_iff in Hin. destruct Hin as [l [Hname Hin]].
      exact (proj1 (existsb_name_false _ _) Hex l Hin Hname).
  - unfold App.onDeleteLabel. simpl.
    destruct (respond (deleteLabelItem k) srv) as [[[]|] srv1]; simpl;
      [now apply distinct_names_after_filter | assumption].
Qed.

(** *** The filter *)

(** Choosing or clearing the filter is local: no request goes out, todos and
    labels stay; and clearing the filter after any choice shows the whole
    cached list. *)
Theorem onSelectLabel_is_local_and_clearing_shows_all
    (label : option Label) (st : App.State) (srv : Srv) :
  requests (dispatch respond (App.onSelectLabel label) st srv) = [] /\
  backend (dispatch respond (App.onSelectLabel label) st srv) = srv /\
  App.todos (ui (dispatch respond (App.onSelectLabel label) st srv))
    = App.todos st /\
  App.labels (ui (dispatch respond (App.onSelectLabel label) st srv))
    = App.labels st /\
  App.dispTodo
    (ui (dispatch respond (App.onSelectLabel None)
           (ui (dispatch respond (App.onSelectLabel label) st srv)) srv))
    = App.todos st.
Proof.
  rewrite !onSelectLabel_sets_filter. simpl. repeat split.
Qed.

(** After a label whose identifier is not 0 is chosen, a todo is shown if
    and only if it is cached and one of its labels has that identifier (the
    names play no part); the shown todos are in cache order. *)
Theorem selecting_a_nonzero_label_shows_its_todos
    (label : Label) (st : App.State) (srv : Srv) :
  label_id label <> 0%Z ->
  App.dispTodo (ui (dispatch respond (App.onSelectLabel (Some label)) st srv))
    = carrying (label_id label) (App.todos st) /\
  (forall todo,
     In todo (App.dispTodo
                (ui (dispatch respond (App.onSelectLabel (Some label)) st srv)))
     <-> In todo (App.todos st) /\
         exists l, In l (todo_labels todo) /\ label_id l = label_id label).
Proof.
  intros Hk. rewrite onSelectLabel_sets_filter.
  rewrite (dispTodo_nonzero_filter _ (label_id label)) by (reflexivity || assumption).
  simpl. split; [reflexivity|].
  intros todo. unfold carrying. rewrite filter_In, existsb_exists.
  split; intros [Hin [l [Hl Hid]]]; (split; [assumption|]); exists l;
    (split; [assumption|]); now apply Z.eqb_eq.
Qed.

(** The form's payloads always pass the shell's guard: for every payload the
    form hands over, the shell sends the creation request first, whatever
    the backend then answers. *)
Theorem form_payload_reaches_the_backend
    (form : TodoForm.State) (payload : NewTodoPayload)
    (st : App.State) (srv : Srv) :
  In payload (fst (TodoForm.addTodoHandler form)) ->
  exists rest,
    requests (dispatch respond (App.onSubmit payload) st srv)
      = addTodoItem payload :: rest.
Proof.
  unfold TodoForm.addTodoHandler.
  destruct (JS.truthy_string (TodoForm.editText form)) eqn:Htext; simpl;
    [|tauto].
  intros [<-|[]]. unfold dispatch, App.onSubmit. simpl new_text.
  rewrite Htext. simpl negb. cbv iota.
  apply exec_bind_await_first.
Qed.

End ShellRuns.


(** ** Further properties of the entry form *)

(** Pressing "add todo" twice in a row submits at most once: the second
    press finds the text empty, makes no call and changes nothing. *)
Theorem second_press_submits_nothing (st : TodoForm.State) :
  TodoForm.addTodoHandler (snd (TodoForm.addTodoHandler st))
    = ([], snd (TodoForm.addTodoHandler st)).
Proof.
  apply addTodoHandler_empty.
  unfold TodoForm.addTodoHandler.
  destruct (JS.truthy_string (TodoForm.editText st)) eqn:H; simpl.
  - reflexivity.
  - now apply truthy_string_empty.
Qed.

(** The label selection outlives a submission: once a new text is typed, the
    next payload carries the labels of the previous one. *)
Theorem label_selection_carries_over_to_the_next_todo
    (st : TodoForm.State) (next : string) :
  TodoForm.editText st <> EmptyString ->
  next <> EmptyString ->
  fst (TodoForm.addTodoHandler
         (TodoForm.setEditText next (snd (TodoForm.addTodoHandler st))))
    = [mkNewTodo next (map label_id (TodoForm.editLabels st))].
Proof.
  intros Hst Hnext. rewrite (addTodoHandler_nonempty st Hst). simpl.
  rewrite addTodoHandler_nonempty by (simpl; assumption). reflexivity.
Qed.

(** ** Further properties of the first shell *)

Section LocalRuns.

Variable Srv : Type.
Variable respond : forall r : Request, Srv -> option (Response r) * Srv.

Lemma local_onUpdate_run (updateTodo : UpdateTodoPayload)
    (todos : LocalApp.State) (srv : Srv) :
  dispatch respond (LocalApp.onUpdate updateTodo) todos srv
    = mkRun Fulfilled
        (map (fun todo => if (todo_id todo =? upd_id updateTodo)%Z
                          then LocalApp.spread todo updateTodo else todo)
           todos)
        srv [].
Proof. reflexivity. Qed.

Lemma local_onSubmit_run (payload : NewTodoPayload)
    (todos : LocalApp.State) (srv : Srv) :
  dispatch respond (LocalApp.onSubmit payload) todos srv
    = mkRun Fulfilled
        (if JS.truthy_string (new_text payload)
         then mkTodo (LocalApp.createId todos) (new_text payload) false []
                :: todos
         else todos)
        srv [].
Proof.
  unfold dispatch, LocalApp.onSubmit.
  destruct (JS.truthy_string (new_text payload)); reflexivity.
Qed.

(** An update whose [id] no todo bears changes nothing. *)
Theorem local_onUpdate_unknown_id_changes_nothing
    (updateTodo : UpdateTodoPayload) (todos : LocalApp.State) (srv : Srv) :
  (forall todo, In todo todos -> todo_id todo <> upd_id updateTodo) ->
  dispatch respond (LocalApp.onUpdate updateTodo) todos srv
    = mkRun Fulfilled todos srv [].
Proof.
  intros H. rewrite local_onUpdate_run.
  rewrite (map_ext_in _ (fun todo => todo)), map_id; [reflexivity|].
  intros t Hin.
  destruct (Z.eqb_spec (todo_id t) (upd_id updateTodo)) as [He|_];
    [|reflexivity].
  exfalso. exact (H t Hin He).
Qed.

(** Applying the same update twice gives what applying it once gives. *)
Theorem local_onUpdate_twice_is_once
    (updateTodo : UpdateTodoPayload) (todos : LocalApp.State) (srv : Srv) :
  ui (dispatch respond (LocalApp.onUpdate updateTodo)
        (ui (dispatch respond (LocalApp.onUpdate updateTodo) todos srv)) srv)
    = ui (dispatch respond (LocalApp.onUpdate updateTodo) todos srv).
Proof.
  rewrite !local_onUpdate_run. simpl. rewrite map_map.
  apply map_ext; intros t.
  destruct (Z.eqb_spec (todo_id t) (upd_id updateTodo)) as [He|Hne].
  - simpl. rewrite Z.eqb_refl.
    unfold LocalApp.spread; simpl.
    destruct (upd_text updateTodo), (upd_completed updateTodo),
      (upd_labels updateTodo); reflexivity.
  - apply Z.eqb_neq in Hne. now rewrite Hne.
Qed.

(** Updates of two different identifiers can be applied in either order. *)
Theorem local_onUpdate_distinct_ids_commute
    (u1 u2 : UpdateTodoPayload) (todos : LocalApp.State) (srv : Srv) :
  upd_id u1 <> upd_id u2 ->
  ui (dispatch respond (LocalApp.onUpdate u2)
        (ui (dispatch respond (LocalApp.onUpdate u1) todos srv)) srv)
    = ui (dispatch respond (LocalApp.onUpdate u1)
            (ui (dispatch respond (LocalApp.onUpdate u2) todos srv)) srv).
Proof.
  intros Hne. rewrite !local_onUpdate_run. simpl. rewrite !map_map.
  apply map_ext; intros t. cbv beta.
  repeat (match goal with
          | |- context [(?a =? ?b)%Z] => destruct (Z.eqb_spec a b)
          end; simpl in *);
    congruence.
Qed.

Lemma countdown_bounds (n : nat) (x : Z) :
  In x (countdown n) -> (1 <= x <= Z.of_nat n)%Z.
Proof.
  induction n as [|n IH]; simpl; [tauto|].
  intros [<-|H]; [lia|]. apply IH in H. lia.
Qed.

Lemma countdown_NoDup (n : nat) : NoDup (countdown n).
Proof.
  induction n as [|n IH]; simpl; constructor; [|assumption].
  intros H. apply countdown_bounds in H. lia.
Qed.

Lemma local_handler_keeps_countdown (i : LocalApp.Intent)
    (todos : LocalApp.State) (srv : Srv) :
  map todo_id todos = countdown (List.length todos) ->
  map todo_id (ui (dispatch respond (LocalApp.handler i) todos srv))
    = countdown (List.length (ui (dispatch respond (LocalApp.handler i) todos srv))).
Proof.
  intros H. destruct i as [payload|updateTodo]; simpl LocalApp.handler.
  - rewrite local_onSubmit_run. simpl.
    destruct (JS.truthy_string (new_text payload)); [|assumption].
    simpl List.length. simpl map. rewrite H. unfold LocalApp.createId.
    change (countdown (S (List.length todos)))
      with (Z.of_nat (S (List.length todos)) :: countdown (List.length todos)).
    f_equal. lia.
  - rewrite local_onUpdate_run. simpl. rewrite length_map, map_map, <- H.
    apply map_ext; intros t.
    destruct (Z.eqb_spec (todo_id t) (upd_id updateTodo)); simpl; congruence.
Qed.

(** In the first shell the identifiers stay [n, ..., 1], newest first, and
    hence distinct, under every succession of submissions and updates. *)
Theorem local_ids_count_down
    (intents : list LocalApp.Intent) (todos : LocalApp.State) (srv : Srv) :
  map todo_id todos = countdown (List.length todos) ->
  map todo_id (play respond intents todos srv)
    = countdown (List.length (play respond intents todos srv)) /\
  NoDup (map todo_id (play respond intents todos srv)).
Proof.
  intros H.
  assert (Hplay : map todo_id (play respond intents todos srv)
                  = countdown (List.length (play respond intents todos srv))).
  { revert todos srv H. induction intents as [|i rest IH]; intros todos srv H.
    - exact H.
    - simpl. apply IH. now apply local_handler_keeps_countdown. }
  split; [exact Hplay|]. rewrite Hplay. apply countdown_NoDup.
Qed.

End LocalRuns.

(** ** The further properties at work on the sample data *)

Lemma onMount_fetches_each_collection_once_witness :
  dispatch Backend.respond App.onMount App.initial Sample.db
    = mkRun Fulfilled
        (App.mkState [Sample.milk; Sample.mail; Sample.nap]
           [Sample.zero; Sample.home; Sample.shop] None)
        Sample.db [getTodoItems; getLabelItems].
Proof.
  exact (onMount_fetches_each_collection_once Backend.Db Backend.respond
           App.initial Sample.db Sample.db Sample.db _ _ eq_refl eq_refl).
Defined.

Lemma onMount_stops_at_first_rejection_witness :
  dispatch (Backend.failing Backend.is_getTodoItems) App.onMount
    App.initial Sample.db
    = mkRun Rejected App.initial Sample.db [getTodoItems] /\
  dispatch (Backend.failing Backend.is_getLabelItems) App.onMount
    App.initial Sample.db
    = mkRun Rejected
        (App.mkState [Sample.milk; Sample.mail; Sample.nap] [] None)
        Sample.db [getTodoItems; getLabelItems].
Proof.
  split.
  - exact (proj1 (onMount_stops_at_first_rejection Backend.Db
                    (Backend.failing Backend.is_getTodoItems)
                    App.initial Sample.db) Sample.db eq_refl).
  - exact (proj2 (onMount_stops_at_first_rejection Backend.Db
                    (Backend.failing Backend.is_getLabelItems)
                    App.initial Sample.db) _ Sample.db Sample.db eq_refl eq_refl).
Defined.

Lemma onUpdate_updates_then_refetches_witness :
  requests (dispatch Backend.respond
              (App.onUpdate (mkUpdate 2 None (Some true) None))
              Sample.shell Sample.db)
    = [updateTodoItem (mkUpdate 2 None (Some true) None); getTodoItems] /\
  App.todos (ui (dispatch Backend.respond
                   (App.onUpdate (mkUpdate 2 None (Some true) None))
                   Sample.shell Sample.db))
    = [Sample.milk; mkTodo 2 "Read mail" true [Sample.zero]; Sample.nap].
Proof.
  pose proof (onUpdate_updates_then_refetches Backend.Db Backend.respond
                (mkUpdate 2 None (Some true) None) Sample.shell Sample.db
                _ _ _ _ eq_refl eq_refl) as Hrun.
  rewrite Hrun. split; reflexivity.
Defined.

Lemma onDelete_deletes_then_refetches_witness :
  requests (dispatch Backend.respond (App.onDelete 2) Sample.shell Sample.db)
    = [deleteTodoItem 2; getTodoItems] /\
  App.todos (ui (dispatch Backend.respond (App.onDelete 2)
                   Sample.shell Sample.db))
    = [Sample.milk; Sample.nap].
Proof.
  pose proof (onDelete_deletes_then_refetches Backend.Db Backend.respond
                2%Z Sample.shell Sample.db _ _ _ eq_refl eq_refl) as Hrun.
  rewrite Hrun. split; reflexivity.
Defined.

Lemma rejected_write_is_not_followed_by_a_fetch_witness :
  dispatch Backend.unreachable (App.onSubmit (mkNewTodo "Buy milk" [1%Z]))
    Sample.shell Sample.db
    = mkRun Rejected Sample.shell Sample.db
        [addTodoItem (mkNewTodo "Buy milk" [1%Z])] /\
  dispatch Backend.unreachable (App.onUpdate (mkUpdate 2 None (Some true) None))
    Sample.shell Sample.db
    = mkRun Rejected Sample.shell Sample.db
        [updateTodoItem (mkUpdate 2 None (Some true) None)] /\
  dispatch Backend.unreachable (App.onDelete 2) Sample.shell Sample.db
    = mkRun Rejected Sample.shell Sample.db [deleteTodoItem 2].
Proof.
  destruct (rejected_write_is_not_followed_by_a_fetch Backend.Db
              Backend.unreachable (mkNewTodo "Buy milk" [1%Z])
              (mkUpdate 2 None (Some true) None) 2%Z
              Sample.shell Sample.db Sample.db) as [Hadd [Hupd Hdel]].
  split; [apply Hadd; [simpl; discriminate | reflexivity]|].
  split; [apply Hupd | apply Hdel]; reflexivity.
Defined.

Lemma rejected_refetch_leaves_the_old_todos_witness :
  App.todos (ui (dispatch (Backend.failing Backend.is_getTodoItems)
                   (App.onDelete 2) Sample.shell Sample.db))
    = [Sample.milk; Sample.mail; Sample.nap] /\
  Backend.db_todos (backend (dispatch (Backend.failing Backend.is_getTodoItems)
                               (App.onDelete 2) Sample.shell Sample.db))
    = [Sample.milk; Sample.nap].
Proof.
  destruct (rejected_refetch_leaves_the_old_todos Backend.Db
              (Backend.failing Backend.is_getTodoItems)
              (mkNewTodo "Buy milk" [1%Z]) (mkUpdate 2 None (Some true) None)
              2%Z Sample.shell Sample.db
              (snd (Backend.respond (deleteTodoItem 2) Sample.db))
              (snd (Backend.respond (deleteTodoItem 2) Sample.db))
              Sample.milk Sample.milk eq_refl) as [_ [_ Hdel]].
  rewrite (Hdel eq_refl). split; reflexivity.
Defined.

Lemma rejected_label_call_changes_nothing_witness :
  dispatch Backend.unreachable (App.onSubmitNewLabel (mkNewLabel "work"))
    Sample.shell Sample.db
    = mkRun Rejected Sample.shell Sample.db [addLabelItem (mkNewLabel "work")] /\
  dispatch Backend.unreachable (App.onDeleteLabel 1) Sample.shell Sample.db
    = mkRun Rejected Sample.shell Sample.db [deleteLabelItem 1].
Proof.
  destruct (rejected_label_call_changes_nothing Backend.Db Backend.unreachable
              (mkNewLabel "work") 1%Z Sample.shell Sample.db Sample.db)
    as [Hadd Hdel].
  split; [apply Hadd; [|reflexivity] | apply Hdel; reflexivity].
  intros label [<-|[<-|[<-|[]]]]; simpl; discriminate.
Defined.

Lemma second_label_submission_from_one_render_drops_the_first_witness :
  App.labels
    (ui (exec Backend.respond
           (App.onSubmitNewLabel (mkNewLabel "play") Sample.shell)
           (ui (dispatch Backend.respond
                  (App.onSubmitNewLabel (mkNewLabel "work"))
                  Sample.shell Sample.db))
           (backend (dispatch Backend.respond
                       (App.onSubmitNewLabel (mkNewLabel "work"))
                       Sample.shell Sample.db))))
    = [Sample.zero; Sample.home; Sample.shop; mkLabel 5 "play"].
Proof.
  assert (Hfresh : forall n, n = "work" \/ n = "play" ->
            forall label, In label (App.labels Sample.shell) ->
                          label_name label <> n).
  { intros n [->| ->] label [<-|[<-|[<-|[]]]]; simpl; discriminate. }
  rewrite (second_label_submission_from_one_render_drops_the_first
             Backend.Db Backend.respond (mkNewLabel "work") (mkNewLabel "play")
             Sample.shell Sample.db _ _ _ _
             (Hfresh _ (or_introl eq_refl)) (Hfresh _ (or_intror eq_refl))
             eq_refl eq_refl).
  reflexivity.
Defined.

Lemma deletions_from_one_render_both_take_effect_witness :
  App.labels
    (ui (exec Backend.respond (App.onDeleteLabel 2 Sample.shell)
           (ui (dispatch Backend.respond (App.onDeleteLabel 1)
                  Sample.shell Sample.db))
           (backend (dispatch Backend.respond (App.onDeleteLabel 1)
                       Sample.shell Sample.db))))
    = [Sample.zero].
Proof.
  rewrite (deletions_from_one_render_both_take_effect Backend.Db
             Backend.respond 1%Z 2%Z Sample.shell Sample.db _ _
             eq_refl eq_refl).
  reflexivity.
Defined.

Lemma label_names_stay_distinct_witness :
  NoDup (map label_name
           (App.labels
              (ui (dispatch Backend.respond
                     (App.onSubmitNewLabel (mkNewLabel "work"))
                     Sample.shell Sample.db)))) /\
  NoDup (map label_name
           (App.labels
              (ui (dispatch Backend.respond (App.onDeleteLabel 1)
                     Sample.shell Sample.db)))).
Proof.
  apply (label_names_stay_distinct Backend.Db Backend.respond
           (mkNewLabel "work") 1%Z Sample.shell Sample.db).
  - repeat constructor; simpl; intuition discriminate.
  - intros res srv1 H. simpl in H. inversion H. reflexivity.
Defined.

Lemma selecting_a_nonzero_label_shows_its_todos_witness :
  App.dispTodo
    (ui (dispatch Backend.respond (App.onSelectLabel (Some Sample.shop))
           Sample.shell Sample.db))
    = [Sample.milk].
Proof.
  assert (Hid : label_id Sample.shop <> 0%Z) by (simpl; lia).
  rewrite (proj1 (selecting_a_nonzero_label_shows_its_todos Backend.Db
                    Backend.respond Sample.shop Sample.shell Sample.db Hid)).
  reflexivity.
Defined.

Lemma form_payload_reaches_the_backend_witness :
  exists rest,
    requests (dispatch Backend.unreachable
                (App.onSubmit (mkNewTodo "Buy milk" [1%Z; 2%Z]))
                Sample.shell Sample.db)
      = addTodoItem (mkNewTodo "Buy milk" [1%Z; 2%Z]) :: rest.
Proof.
  apply (form_payload_reaches_the_backend Backend.Db Backend.unreachable
           Sample.draft).
  simpl. left. reflexivity.
Defined.

Lemma label_selection_carries_over_to_the_next_todo_witness :
  fst (TodoForm.addTodoHandler
         (TodoForm.setEditText "Call home"
            (snd (TodoForm.addTodoHandler Sample.draft))))
    = [mkNewTodo "Call home" [1%Z; 2%Z]].
Proof.
  apply (label_selection_carries_over_to_the_next_todo Sample.draft "Call home");
    simpl; discriminate.
Defined.

Lemma local_onUpdate_unknown_id_changes_nothing_witness :
  dispatch Backend.respond (LocalApp.onUpdate (mkUpdate 9 None (Some true) None))
    [Sample.milk; Sample.mail; Sample.nap] Sample.db
    = mkRun Fulfilled [Sample.milk; Sample.mail; Sample.nap] Sample.db [].
Proof.
  apply (local_onUpdate_unknown_id_changes_nothing Backend.Db Backend.respond).
  intros todo [<-|[<-|[<-|[]]]]; simpl; lia.
Defined.

Lemma local_onUpdate_distinct_ids_commute_witness :
  ui (dispatch Backend.respond
        (LocalApp.onUpdate (mkUpdate 3 (Some "Sleep") None None))
        (ui (dispatch Backend.respond
               (LocalApp.onUpdate (mkUpdate 2 None (Some true) None))
               [Sample.milk; Sample.mail; Sample.nap] Sample.db))
        Sample.db)
    = ui (dispatch Backend.respond
            (LocalApp.onUpdate (mkUpdate 2 None (Some true) None))
            (ui (dispatch Backend.respond
                   (LocalApp.onUpdate (mkUpdate 3 (Some "Sleep") None None))
                   [Sample.milk; Sample.mail; Sample.nap] Sample.db))
            Sample.db).
Proof.
  apply (local_onUpdate_distinct_ids_commute Backend.Db Backend.respond
           (mkUpdate 2 None (Some true) None)
           (mkUpdate 3 (Some "Sleep") None None)).
  simpl. lia.
Defined.

Lemma local_ids_count_down_witness :
  map todo_id
    (play Backend.respond
       [LocalApp.Submit (mkNewTodo "Buy milk" []);
        LocalApp.Submit (mkNewTodo EmptyString []);
        LocalApp.Update (mkUpdate 1 None (Some true) None);
        LocalApp.Submit (mkNewTodo "Read mail" [])]
       [] Backend.empty)
    = [2%Z; 1%Z].
Proof.
  rewrite (proj1 (local_ids_count_down Backend.Db Backend.respond
                    [LocalApp.Submit (mkNewTodo "Buy milk" []);
                     LocalApp.Submit (mkNewTodo EmptyString []);
                     LocalApp.Update (mkUpdate 1 None (Some true) None);
                     LocalApp.Submit (mkNewTodo "Read mail" [])]
                    [] Backend.empty eq_refl)).
  reflexivity.
Defined.
